(** * pdf_parser: a shallow embedding of [pdf_parser/parser.py]

    The module is a thin wrapper around two external libraries (PyMuPDF,
    imported as [fitz], and [pymupdf4llm]) and around [pathlib].  The wrapper's
    own logic is page selection ([parse_pdf_to_markdown]), the concatenation of
    page chunks ([save_markdown]) and the command-line flow ([main]).

    The external calls are taken as parameters (class [Externals]); the
    wrapper's code is embedded in a state-and-exception monad over a world
    made of the file system and of the trace of external calls. *)

From Stdlib Require Import ZArith List String Ascii Bool Lia.
From stdpp Require Import base option list gmap strings pretty.

Local Open Scope Z_scope.
Local Open Scope string_scope.

(** ** Python values *)

(** The scalars a chunk dictionary holds under ["text"] and inside its
    ["metadata"] mapping. *)
Inductive scalar :=
  | SNone
  | SBool (b : bool)
  | SInt (n : Z)
  | SStr (s : string).

(** [str(v)], which is what an f-string field [{v}] inserts. *)
Definition py_str (v : scalar) : string :=
  match v with
  | SNone => "None"
  | SBool true => "True"
  | SBool false => "False"
  | SInt n => pretty n
  | SStr s => s
  end.

(** One element of the chunked output: a dictionary of which the wrapper reads
    the keys ["metadata"] (a mapping) and ["text"]; [None] is an absent key. *)
Record page_dict := PageDict {
  pd_metadata : option (gmap string scalar);
  pd_text : option scalar
}.

(** [Union[str, List[dict]]] *)
Inductive md_output :=
  | MdStr (s : string)
  | MdList (l : list page_dict).

(** [isinstance(md_output, list)] *)
Definition is_list (md : md_output) : bool :=
  match md with MdList _ => true | MdStr _ => false end.

(** Truth value of [pages : Union[List[int], None]] in [if pages:]. *)
Definition truthy (pages : option (list Z)) : bool :=
  match pages with
  | None | Some [] => false
  | Some (_ :: _) => true
  end.

(** ** Exceptions *)

(** [ValueError] and [TypeError] are raised by the wrapper's own code path;
    whatever the external libraries raise is an [ExternalError]. *)
Inductive exn :=
  | ValueError (msg : string)
  | TypeError (msg : string)
  | ExternalError (msg : string).

(** [str(e)] *)
Definition exn_str (e : exn) : string :=
  match e with
  | ValueError msg | TypeError msg | ExternalError msg => msg
  end.

Inductive result (A : Type) :=
  | Ok (a : A)
  | Raise (e : exn).
Arguments Ok {A} a.
Arguments Raise {A} e.

(** ** Calls that leave the wrapper

    A trace lists, in order, the calls the wrapper itself makes.  What a
    library does inside its call is the library's: what it changes on the file
    system is in the [FS] it returns, what it may print is not recorded. *)

Inductive event :=
  | EvOpen (pdf_path : string)
  | EvToMarkdown (pages : list Z) (write_images : bool) (image_path : string)
      (dpi : Z) (image_format : string) (page_chunks : bool)
  | EvMkdir (dir : string) (parents exist_ok : bool)
  | EvWriteText (file data encoding : string)
  | EvStdout (line : string)
  | EvStderr (line : string).

(** The libraries the wrapper calls.  Each call reads and may change the file
    system and either returns or raises (left: the exception's message). *)
Class Externals := {
  Document : Type;
  FS : Type;
  (** [fitz.open(pdf_path)] *)
  fitz_open : string -> FS -> (string + Document) * FS;
  (** [len(doc)] *)
  doc_len : Document -> nat;
  (** [pymupdf4llm.to_markdown(doc, pages=, write_images=, image_path=, dpi=,
      image_format=, page_chunks=)] *)
  to_markdown : Document -> list Z -> bool -> string -> Z -> string -> bool ->
                FS -> (string + md_output) * FS;
  (** [pathlib.Path(p).parent] *)
  path_parent : string -> string;
  (** [Path(p).mkdir(parents=, exist_ok=)] *)
  path_mkdir : string -> bool -> bool -> FS -> (string + unit) * FS;
  (** [Path(p).write_text(data, encoding=)] on a [str] *)
  path_write_text : string -> string -> string -> FS -> (string + unit) * FS;
  (** [Path(p).read_text(encoding=)] *)
  path_read_text : string -> string -> FS -> string + string
}.

Definition nl : string := String "010"%char "".

Section Wrapper.
Context `{X : Externals}.

(** ** The monad *)

Record world := World {
  w_fs : FS;
  w_trace : list event
}.

Definition M (A : Type) : Type := world -> result A * world.

Definition ret {A} (a : A) : M A := fun w => (Ok a, w).

Definition raise {A} (e : exn) : M A := fun w => (Raise e, w).

Definition bind {A B} (m : M A) (k : A -> M B) : M B := fun w =>
  match m w with
  | (Ok a, w') => k a w'
  | (Raise e, w') => (Raise e, w')
  end.

Notation "x <~ m ;; k" := (bind m (fun x => k))
  (at level 100, m at next level, right associativity).

Definition log (ev : event) (w : world) : world :=
  {| w_fs := w_fs w; w_trace := w_trace w ++ [ev] |}.

(** An external call: logged, then run on the file system. *)
Definition call {A} (ev : event) (f : FS -> (string + A) * FS) : M A := fun w =>
  match f (w_fs w) with
  | (inr a, fs') => (Ok a, {| w_fs := fs'; w_trace := w_trace w ++ [ev] |})
  | (inl msg, fs') =>
      (Raise (ExternalError msg), {| w_fs := fs'; w_trace := w_trace w ++ [ev] |})
  end.

(** [print(line)] *)
Definition print (line : string) : M unit := fun w => (Ok tt, log (EvStdout line) w).

(** ** [parse_pdf_to_markdown] *)

Definition no_valid_pages (total_pages : Z) : exn :=
  ValueError ("No valid pages specified. Document has " +:+ pretty total_pages +:+ " pages.").

(** Lines 24-29: the page list handed to the library. *)
Definition select_pages (pages : option (list Z)) (total_pages : Z) : result (list Z) :=
  if truthy pages then
    let pages := filter (fun p => 0 <= p < total_pages) (default [] pages) in
    if bool_decide (pages = []) then Raise (no_valid_pages total_pages)
    else Ok pages
  else Ok (seqZ 0 total_pages).

Definition lift {A} (r : result A) : M A := fun w => (r, w).

Definition parse_pdf_to_markdown (pdf_path : string) (pages : option (list Z))
    (write_images : bool) (image_path : string) (dpi : Z) (image_format : string)
    (page_chunks : bool) : M md_output :=
  doc <~ call (EvOpen pdf_path) (fitz_open pdf_path) ;;
  let total_pages := Z.of_nat (doc_len doc) in
  pages <~ lift (select_pages pages total_pages) ;;
  md_output <~ call (EvToMarkdown pages write_images image_path dpi image_format page_chunks)
                 (to_markdown doc pages write_images image_path dpi image_format page_chunks) ;;
  ret md_output.

(** ** [save_markdown] *)

(** [page_dict.get("metadata", {}).get("page", "unknown")] *)
Definition page_number (page_dict : page_dict) : scalar :=
  default (SStr "unknown") (default ∅ (pd_metadata page_dict) !! "page").

(** [page_dict.get('text', '')] *)
Definition page_text (page_dict : page_dict) : scalar :=
  default (SStr "") (pd_text page_dict).

(** One turn of the loop of lines 52-54: [full_md += f"# Page ..."]. *)
Definition add_page (full_md : string) (page_dict : page_dict) : string :=
  full_md +:+ ("# Page " +:+ py_str (page_number page_dict) +:+ nl +:+ nl
               +:+ py_str (page_text page_dict) +:+ nl +:+ nl).

(** Lines 50-55: the value of [md_output] when line 57 is reached. *)
Definition joined (md : md_output) (page_chunks : bool) : md_output :=
  if page_chunks && is_list md then
    match md with
    | MdList l => MdStr (fold_left add_page l "")
    | MdStr _ => md
    end
  else md.

(** [Path.write_text] refuses data that is not a [str] before it opens the
    file. *)
Definition write_text (file : string) (data : md_output) (encoding : string) : M unit :=
  match data with
  | MdStr s => call (EvWriteText file s encoding) (path_write_text file s encoding)
  | MdList _ => raise (TypeError "data must be str, not list")
  end.

Definition save_markdown (md : md_output) (output_path : string)
    (page_chunks : bool) : M unit :=
  let output_file := output_path in
  _ <~ call (EvMkdir (path_parent output_file) true true)
         (path_mkdir (path_parent output_file) true true) ;;
  let md := joined md page_chunks in
  write_text output_file md "utf-8".

(** ** [main] *)

(** The namespace [parser_cli.parse_args()] returns. *)
Record args := Args {
  arg_input : string;
  arg_output : string;
  arg_pages : option (list Z);
  arg_write_images : bool;
  arg_page_chunks : bool;
  arg_dpi : Z;
  arg_image_path : string;
  arg_image_format : string
}.

(** The body of the [try] of lines 99-111. *)
Definition main_try (a : args) : M unit :=
  md <~ parse_pdf_to_markdown (arg_input a) (arg_pages a) (arg_write_images a)
                 (arg_image_path a) (arg_dpi a) (arg_image_format a) (arg_page_chunks a) ;;
  _ <~ save_markdown md (arg_output a) (arg_page_chunks a) ;;
  _ <~ print ("Successfully processed '" +:+ arg_input a +:+ "'.") ;;
  print ("Output saved to '" +:+ arg_output a +:+ "'.").

(** Lines 99-114 on parsed arguments; the result is the exit status of the
    process: [sys.exit(1)] in the handler, 0 when [main] returns. *)
Definition main (a : args) (w : world) : Z * world :=
  match main_try a w with
  | (Ok _, w') => (0, w')
  | (Raise e, w') =>
      match print ("An error occurred: " +:+ exn_str e) w' with
      | (_, w'') => (1, w'')
      end
  end.

(** The calls that write to the file system on the wrapper's behalf. *)
Definition is_save_call (ev : event) : bool :=
  match ev with
  | EvMkdir _ _ _ | EvWriteText _ _ _ => true
  | _ => false
  end.

(** The calls into the PDF libraries. *)
Definition is_library_call (ev : event) : bool :=
  match ev with
  | EvOpen _ | EvToMarkdown _ _ _ _ _ _ => true
  | _ => false
  end.

End Wrapper.

(** ** Notions of the specification *)

(** The header line the specification gives a chunk: [# Page <n>] with the
    page number of its metadata, [unknown] when there is none. *)
Definition spec_header (d : page_dict) : string :=
  "# Page " +:+
  match pd_metadata d ≫= (fun m => m !! "page") with
  | Some n => py_str n
  | None => "unknown"
  end.

(** A page of the aggregated output: header line, blank line, body, and one
    blank line after the body. *)
Definition spec_section (d : page_dict) : string :=
  spec_header d +:+ nl +:+ nl +:+ py_str (page_text d) +:+ nl +:+ nl.

(** The pages one after the other, in the order of the records. *)
Definition spec_join (l : list page_dict) : string :=
  foldr (fun d rest => spec_section d +:+ rest) "" l.

(** The effect the specification gives [save]: the parent directories are
    created as needed, then the text is written UTF-8 encoded. *)
Definition spec_save `{X : Externals} (output_path text : string) : M unit :=
  bind (call (EvMkdir (path_parent output_path) true true)
          (path_mkdir (path_parent output_path) true true))
       (fun _ => call (EvWriteText output_path text "utf-8")
                   (path_write_text output_path text "utf-8")).

(** [needle in hay] on strings. *)
Fixpoint contains (needle hay : string) : bool :=
  String.prefix needle hay ||
  match hay with
  | EmptyString => false
  | String _ hay' => contains needle hay'
  end.

(** The output shows a text: in the string, or in the body of a chunk. *)
Definition output_contains (text : string) (md : md_output) : bool :=
  match md with
  | MdStr s => contains text s
  | MdList l => existsb (fun d => contains text (py_str (page_text d))) l
  end.

(** The pages a caller asks for: all of them without a filter. *)
Definition requested (pages : option (list Z)) (i : Z) : Prop :=
  match pages with
  | None => True
  | Some l => i ∈ l
  end.

(** ** A small instance of the external libraries

    Documents are lists of page texts, found under fixed names; the file
    system is the map of the text files written so far. *)
Module Toy.

Definition docs (pdf_path : string) : option (list string) :=
  if String.eqb pdf_path "two.pdf"
  then Some ["First page: Hello World!"; "Second page: Goodbye World!"]
  else if String.eqb pdf_path "three.pdf"
  then Some ["Page One Content"; "Page Two Content"; "Page Three Content"]
  else None.

Definition text_at (doc : list string) (p : Z) : string :=
  default "" (doc !! Z.to_nat p).

(** The library numbers its chunks from 1. *)
Definition chunk (doc : list string) (p : Z) : page_dict :=
  {| pd_metadata := Some {[ "page" := SInt (p + 1) ]};
     pd_text := Some (SStr (text_at doc p)) |}.

Definition render (doc : list string) (pages : list Z) : string :=
  foldr (fun p acc => text_at doc p +:+ nl +:+ nl +:+ acc) "" pages.

#[export] Instance lib : Externals := {|
  Document := list string;
  FS := gmap string string;
  fitz_open pdf_path fs :=
    match docs pdf_path with
    | Some d => (inr d, fs)
    | None => (inl ("no such file: '" +:+ pdf_path +:+ "'"), fs)
    end;
  doc_len := length;
  to_markdown doc pages _ _ _ _ page_chunks fs :=
    (inr (if page_chunks then MdList (map (chunk doc) pages)
          else MdStr (render doc pages)), fs);
  path_parent _ := ".";
  path_mkdir _ _ _ fs := (inr tt, fs);
  path_write_text file data _ fs := (inr tt, <[file := data]> fs);
  path_read_text file _ fs :=
    match fs !! file with
    | Some data => inr data
    | None => inl ("no such file: '" +:+ file +:+ "'")
    end
|}.

Definition at_ (fs : gmap string string) (trace : list event) : world :=
  @World lib fs trace.

Definition fresh : world := at_ ∅ [].

Definition cli (input output : string) (pages : option (list Z)) (page_chunks : bool) : args :=
  {| arg_input := input; arg_output := output; arg_pages := pages;
     arg_write_images := false; arg_page_chunks := page_chunks; arg_dpi := 150;
     arg_image_path := "images"; arg_image_format := "png" |}.

End Toy.

(** ** A second instance, with failures

    A file system on which directories under [ro] cannot be made and files
    under [full] cannot be written, a library that knows two image formats,
    and a document without pages. *)
Module Harsh.

Definition docs (pdf_path : string) : option (list string) :=
  if String.eqb pdf_path "empty.pdf" then Some []
  else if String.eqb pdf_path "one.pdf" then Some ["This is a test PDF."]
  else None.

(** The part of a path before its last [/]. *)
Fixpoint dirname_aux (p : string) : option string :=
  match p with
  | EmptyString => None
  | String c p' =>
      match dirname_aux p' with
      | Some d => Some (String c d)
      | None => if Ascii.eqb c "/" then Some "" else None
      end
  end.

Definition dirname (p : string) : string :=
  match dirname_aux p with
  | Some EmptyString => "/"
  | Some d => d
  | None => "."
  end.

#[export] Instance lib : Externals := {|
  Document := list string;
  FS := gmap string string;
  fitz_open pdf_path fs :=
    match docs pdf_path with
    | Some d => (inr d, fs)
    | None => (inl ("no such file: '" +:+ pdf_path +:+ "'"), fs)
    end;
  doc_len := length;
  to_markdown doc pages _ _ _ image_format page_chunks fs :=
    if String.eqb image_format "png" || String.eqb image_format "jpg" then
      (inr (if page_chunks then MdList (map (Toy.chunk doc) pages)
            else MdStr (Toy.render doc pages)), fs)
    else (inl ("unsupported image format: " +:+ image_format), fs);
  path_parent := dirname;
  path_mkdir dir _ _ fs :=
    if String.prefix "ro" dir then (inl ("Read-only file system: '" +:+ dir +:+ "'"), fs)
    else (inr tt, fs);
  path_write_text file data _ fs :=
    if String.prefix "full" file then (inl "No space left on device", fs)
    else (inr tt, <[file := data]> fs);
  path_read_text file _ fs :=
    match fs !! file with
    | Some data => inr data
    | None => inl ("no such file: '" +:+ file +:+ "'")
    end
|}.

Definition at_ (fs : gmap string string) (trace : list event) : world :=
  @World lib fs trace.

Definition fresh : world := at_ ∅ [].

End Harsh.


(** * Properties *)

Lemma append_assoc (a b c : string) : (a +:+ b) +:+ c = a +:+ (b +:+ c).
Proof.
  induction a as [|x a IH]; [reflexivity|].
  change (String x ((a +:+ b) +:+ c) = String x (a +:+ (b +:+ c))).
  now rewrite IH.
Qed.

Lemma append_nil_r (a : string) : a +:+ "" = a.
Proof.
  induction a as [|x a IH]; [reflexivity|].
  change (String x (a +:+ "") = String x a). now rewrite IH.
Qed.

Section Properties.
Context `{X : Externals}.

Implicit Types (w : world) (doc : Document) (d : page_dict).

(** *** Page selection *)

Lemma select_pages_nonempty (l : list Z) total :
  l <> [] ->
  select_pages (Some l) total =
    let kept := filter (fun p => 0 <= p < total) l in
    if bool_decide (kept = []) then Raise (no_valid_pages total) else Ok kept.
Proof. destruct l; [congruence | reflexivity]. Qed.

Lemma select_pages_all pages total :
  pages = None \/ pages = Some [] ->
  select_pages pages total = Ok (seqZ 0 total).
Proof. intros [-> | ->]; reflexivity. Qed.

Lemma select_pages_raise pages total e :
  select_pages pages total = Raise e <->
  e = no_valid_pages total /\
  exists l, pages = Some l /\ l <> [] /\ Forall (fun p => ~ (0 <= p < total)) l.
Proof.
  split.
  - destruct pages as [[|p l]|]; try discriminate.
    rewrite select_pages_nonempty by discriminate. cbn zeta.
    case_bool_decide as Hk; [|discriminate].
    intros [= <-]. split; [reflexivity|].
    exists (p :: l). split; [reflexivity|]. split; [discriminate|].
    apply Forall_forall. intros q Hq Hin.
    exact (filter_nil_not_elem_of (fun p => 0 <= p < total) _ q Hk Hin Hq).
  - intros (-> & l & -> & Hne & Hall).
    rewrite select_pages_nonempty by assumption. cbn zeta.
    rewrite bool_decide_eq_true_2; [reflexivity|].
    clear Hne. induction Hall as [|q l Hq _ IH]; [reflexivity|].
    rewrite filter_cons, decide_False by assumption. exact IH.
Qed.

(** What [parse_pdf_to_markdown] does once the document is open. *)
Lemma parse_opened pdf_path pages wi ip dpi fmt pc w doc fs0 :
  fitz_open pdf_path (w_fs w) = (inr doc, fs0) ->
  parse_pdf_to_markdown pdf_path pages wi ip dpi fmt pc w =
    let w0 := {| w_fs := fs0; w_trace := w_trace w ++ [EvOpen pdf_path] |} in
    match select_pages pages (Z.of_nat (doc_len doc)) with
    | Raise e => (Raise e, w0)
    | Ok ps => call (EvToMarkdown ps wi ip dpi fmt pc)
                 (to_markdown doc ps wi ip dpi fmt pc) w0
    end.
Proof.
  intros Hopen. unfold parse_pdf_to_markdown, bind, call at 1, lift, ret.
  rewrite Hopen. cbn.
  destruct (select_pages _ _) as [ps|e]; [|reflexivity].
  destruct (call _ _ _) as [[out|e] w1]; reflexivity.
Qed.

Lemma parse_not_opened pdf_path pages wi ip dpi fmt pc w msg fs0 :
  fitz_open pdf_path (w_fs w) = (inl msg, fs0) ->
  parse_pdf_to_markdown pdf_path pages wi ip dpi fmt pc w =
    (Raise (ExternalError msg),
     {| w_fs := fs0; w_trace := w_trace w ++ [EvOpen pdf_path] |}).
Proof.
  intros Hopen. unfold parse_pdf_to_markdown, bind, call. now rewrite Hopen.
Qed.

Lemma call_raise {A} ev (f : FS -> (string + A) * FS) w e w' :
  call ev f w = (Raise e, w') -> exists msg, e = ExternalError msg.
Proof.
  unfold call. destruct (f (w_fs w)) as [[msg|a] fs']; intros [= <- <-]; eauto.
Qed.

(** C1 (amended): for a non-empty pages filter, exactly the indices within
    [0, total_pages) are kept; when none is kept the call raises the
    no-valid-pages [ValueError] right after opening the document, without
    calling the library; otherwise the library is called with the kept indices,
    the others being dropped without a trace. *)
Theorem out_of_bounds_pages_dropped pdf_path (l : list Z) wi ip dpi fmt pc w doc fs0 :
  l <> [] ->
  fitz_open pdf_path (w_fs w) = (inr doc, fs0) ->
  let total := Z.of_nat (doc_len doc) in
  let kept := filter (fun p => 0 <= p < total) l in
  let w0 := {| w_fs := fs0; w_trace := w_trace w ++ [EvOpen pdf_path] |} in
  (forall p, p ∈ kept <-> (0 <= p < total) /\ p ∈ l) /\
  (kept = [] ->
     parse_pdf_to_markdown pdf_path (Some l) wi ip dpi fmt pc w
     = (Raise (no_valid_pages total), w0)) /\
  (kept <> [] ->
     parse_pdf_to_markdown pdf_path (Some l) wi ip dpi fmt pc w
     = call (EvToMarkdown kept wi ip dpi fmt pc)
         (to_markdown doc kept wi ip dpi fmt pc) w0).
Proof.
  intros Hne Hopen total kept w0. split; [|split].
  - intros p. exact (list_elem_of_filter (fun p => 0 <= p < total) l p).
  - intros Hk. rewrite (parse_opened _ _ _ _ _ _ _ _ _ _ Hopen).
    cbn zeta. rewrite select_pages_nonempty by assumption. cbn zeta.
    fold total. fold kept. now rewrite bool_decide_eq_true_2.
  - intros Hk. rewrite (parse_opened _ _ _ _ _ _ _ _ _ _ Hopen).
    cbn zeta. rewrite select_pages_nonempty by assumption. cbn zeta.
    fold total. fold kept. now rewrite bool_decide_eq_false_2.
Qed.

(** C9: once the document is open, the call raises the no-valid-pages error
    exactly when [pages] is a non-empty list without any index in
    [0, total_pages); with [None] or with the empty list it hands every page of
    the document to the library instead. *)
Theorem no_valid_pages_iff pdf_path pages wi ip dpi fmt pc w doc fs0 :
  fitz_open pdf_path (w_fs w) = (inr doc, fs0) ->
  let total := Z.of_nat (doc_len doc) in
  let w0 := {| w_fs := fs0; w_trace := w_trace w ++ [EvOpen pdf_path] |} in
  ((exists msg, fst (parse_pdf_to_markdown pdf_path pages wi ip dpi fmt pc w)
                = Raise (ValueError msg)) <->
   (exists l, pages = Some l /\ l <> [] /\ Forall (fun p => ~ (0 <= p < total)) l)) /\
  (pages = None \/ pages = Some [] ->
     parse_pdf_to_markdown pdf_path pages wi ip dpi fmt pc w
     = call (EvToMarkdown (seqZ 0 total) wi ip dpi fmt pc)
         (to_markdown doc (seqZ 0 total) wi ip dpi fmt pc) w0) /\
  (forall p, p ∈ seqZ 0 total <-> 0 <= p < total).
Proof.
  intros Hopen total w0.
  rewrite (parse_opened _ _ _ _ _ _ _ _ _ _ Hopen). cbn zeta. fold total. fold w0.
  split; [|split].
  - split.
    + intros [msg Hr].
      destruct (select_pages pages total) as [ps|e] eqn:Hs.
      * destruct (call _ _ w0) as [[out|e] w1] eqn:Hc; [discriminate|].
        apply call_raise in Hc as [msg' ->]. discriminate.
      * apply select_pages_raise in Hs as [_ Hl]. exact Hl.
    + intros Hl. exists (exn_str (no_valid_pages total)).
      assert (select_pages pages total = Raise (no_valid_pages total)) as ->.
      { apply select_pages_raise. split; [reflexivity | exact Hl]. }
      reflexivity.
  - intros Hp. now rewrite (select_pages_all _ _ Hp).
  - intros p. rewrite elem_of_seqZ. lia.
Qed.

(** *** Concatenation of the chunks *)

Lemma page_number_header d :
  "# Page " +:+ py_str (page_number d) = spec_header d.
Proof.
  unfold spec_header, page_number.
  destruct (pd_metadata d) as [m|]; cbn.
  - now destruct (m !! "page").
  - now rewrite lookup_empty.
Qed.

Lemma add_page_section acc d : add_page acc d = acc +:+ spec_section d.
Proof.
  unfold add_page, spec_section. rewrite <- page_number_header.
  now rewrite !append_assoc.
Qed.

Lemma fold_add_page l acc : fold_left add_page l acc = acc +:+ spec_join l.
Proof.
  unfold spec_join. revert acc.
  induction l as [|d l IH]; intros acc; cbn [fold_left fold_right].
  - now rewrite append_nil_r.
  - now rewrite IH, add_page_section, append_assoc.
Qed.

Lemma spec_join_app l1 l2 : spec_join (l1 ++ l2) = spec_join l1 +:+ spec_join l2.
Proof.
  unfold spec_join.
  induction l1 as [|d l1 IH]; cbn [app fold_right]; [reflexivity|].
  now rewrite IH, append_assoc.
Qed.

Lemma joined_chunks l : joined (MdList l) true = MdStr (spec_join l).
Proof. cbn. now rewrite fold_add_page. Qed.

Lemma save_string s output_path pc :
  save_markdown (MdStr s) output_path pc = spec_save output_path s.
Proof. unfold save_markdown, joined. now rewrite andb_false_r. Qed.

Lemma save_chunks l output_path :
  save_markdown (MdList l) output_path true = spec_save output_path (spec_join l).
Proof. unfold save_markdown. now rewrite joined_chunks. Qed.

(** C2: in the text [save_markdown] writes for a list of chunks, the body of
    every record [d] comes after the line [# Page n], where [n] prints the
    value its metadata holds under ["page"] (the decimal numeral for an
    integer) and is [unknown] when the record has no metadata or its metadata
    has no page. *)
Theorem page_header_rule l1 d l2 output_path :
  exists n,
    save_markdown (MdList (l1 ++ d :: l2)) output_path true
    = spec_save output_path
        (fold_left add_page l1 "" +:+
         ("# Page " +:+ n +:+ nl +:+ nl +:+ py_str (page_text d) +:+ nl +:+ nl) +:+
         fold_left add_page l2 "") /\
    (forall m v, pd_metadata d = Some m -> m !! "page" = Some v -> n = py_str v) /\
    (forall m k, pd_metadata d = Some m -> m !! "page" = Some (SInt k) -> n = pretty k) /\
    (pd_metadata d = None -> n = "unknown") /\
    (forall m, pd_metadata d = Some m -> m !! "page" = None -> n = "unknown").
Proof.
  exists (py_str (page_number d)). split.
  - rewrite save_chunks. f_equal.
    rewrite !fold_add_page, spec_join_app. cbn.
    unfold spec_section. rewrite <- page_number_header.
    now rewrite !append_assoc.
  - unfold page_number. repeat split.
    + intros m v -> Hv; cbn. now rewrite Hv.
    + intros m k -> Hk; cbn. now rewrite Hk.
    + intros ->; cbn. now rewrite lookup_empty.
    + intros m -> Hm; cbn. now rewrite Hm.
Qed.

(** C3: the text written for a list of chunks is the sequence of the records'
    sections in the order of the list, one per record, each made of the header
    line, a blank line, the body and one blank line after the body. *)
Theorem chunks_joined_in_order l output_path :
  save_markdown (MdList l) output_path true = spec_save output_path (spec_join l) /\
  spec_join l = String.concat "" (map spec_section l) /\
  length (map spec_header l) = length l /\
  (forall i d, l !! i = Some d ->
     spec_join l = spec_join (take i l) +:+
       (spec_header d +:+ nl +:+ nl +:+ py_str (page_text d) +:+ nl +:+ nl) +:+
       spec_join (drop (S i) l)).
Proof.
  split; [apply save_chunks|]. split; [|split].
  - induction l as [|d l IH]; [reflexivity|].
    cbn [map spec_join foldr]. fold (spec_join l). rewrite IH.
    destruct l as [|d' l]; [now rewrite append_nil_r | reflexivity].
  - now rewrite length_map.
  - intros i d Hd.
    rewrite <- (take_drop_middle l i d Hd) at 1.
    rewrite spec_join_app. reflexivity.
Qed.

(** C4 (amended): for every destination, [save_markdown] creates the parent
    directories and then writes UTF-8 text: a string as it is, and a list of
    chunks, when [page_chunks] is set, joined by the header rule. *)
Theorem save_creates_dirs_and_writes output_path :
  (forall s pc, save_markdown (MdStr s) output_path pc = spec_save output_path s) /\
  (forall l, save_markdown (MdList l) output_path true
             = spec_save output_path (spec_join l)) /\
  (forall text w,
     exists r fs',
       spec_save output_path text w
       = (r, {| w_fs := fs';
                w_trace := w_trace w ++
                  EvMkdir (path_parent output_path) true true ::
                  match path_mkdir (path_parent output_path) true true (w_fs w) with
                  | (inr _, _) => [EvWriteText output_path text "utf-8"]
                  | (inl _, _) => []
                  end |})).
Proof.
  split; [|split].
  - intros; apply save_string.
  - intros; apply save_chunks.
  - intros text w. unfold spec_save, bind, call.
    destruct (path_mkdir _ _ _ _) as [[msg|[]] fs1]; [eauto|].
    cbn [w_fs w_trace].
    destruct (path_write_text _ _ _ _) as [[msg|[]] fs2];
      rewrite <- (app_assoc (w_trace w)); cbn [app]; eauto.
Qed.

(** C10: a string is written as it is whatever [page_chunks] is: when the
    directory and the file can be written, the call returns, the two calls it
    made are the [mkdir] and the writing of that very string as UTF-8, and the
    file reads back as the string; the value to write is changed only when
    [page_chunks] is set and the output is a list. *)
Theorem save_string_verbatim s output_path pc w fs1 fs2 :
  path_mkdir (path_parent output_path) true true (w_fs w) = (inr tt, fs1) ->
  path_write_text output_path s "utf-8" fs1 = (inr tt, fs2) ->
  path_read_text output_path "utf-8" fs2 = inr s ->
  save_markdown (MdStr s) output_path pc w
  = (Ok tt, {| w_fs := fs2;
               w_trace := w_trace w ++ [EvMkdir (path_parent output_path) true true;
                                        EvWriteText output_path s "utf-8"] |}) /\
  path_read_text output_path "utf-8" (w_fs (save_markdown (MdStr s) output_path pc w).2)
  = inr s /\
  (forall md flag, joined md flag <> md -> flag = true /\ is_list md = true).
Proof.
  intros Hmk Hwr Hrd.
  assert (save_markdown (MdStr s) output_path pc w
          = (Ok tt, {| w_fs := fs2;
               w_trace := w_trace w ++ [EvMkdir (path_parent output_path) true true;
                                        EvWriteText output_path s "utf-8"] |})) as Hsave.
  { rewrite save_string. unfold spec_save, bind, call. rewrite Hmk. cbn.
    rewrite Hwr. now rewrite <- app_assoc. }
  split; [exact Hsave|]. split.
  - now rewrite Hsave.
  - intros md flag Hj. unfold joined in Hj.
    destruct flag, md; cbn in *; try congruence. now split.
Qed.

(** *** Traces *)

Lemma call_trace {A} ev (f : FS -> (string + A) * FS) w :
  w_trace (call ev f w).2 = (w_trace w ++ [ev])%list.
Proof. unfold call. now destruct (f (w_fs w)) as [[msg|a] fs']. Qed.

Lemma parse_trace pdf_path pages wi ip dpi fmt pc w :
  exists evs,
    w_trace (parse_pdf_to_markdown pdf_path pages wi ip dpi fmt pc w).2
    = (w_trace w ++ evs)%list /\
    Forall (fun ev => is_library_call ev = true) evs.
Proof.
  destruct (fitz_open pdf_path (w_fs w)) as [[msg|doc] fs0] eqn:Hopen.
  - rewrite (parse_not_opened _ _ _ _ _ _ _ _ _ _ Hopen). cbn.
    exists [EvOpen pdf_path]. split; [reflexivity | repeat constructor].
  - rewrite (parse_opened _ _ _ _ _ _ _ _ _ _ Hopen). cbn zeta.
    destruct (select_pages _ _) as [ps|e].
    + rewrite call_trace. cbn [w_trace]. rewrite <- app_assoc.
      eexists. split; [reflexivity | repeat constructor].
    + cbn. exists [EvOpen pdf_path]. split; [reflexivity | repeat constructor].
Qed.

(** What [main] does, by the outcome of its two calls. *)
Lemma main_cases a w :
  match parse_pdf_to_markdown (arg_input a) (arg_pages a) (arg_write_images a)
          (arg_image_path a) (arg_dpi a) (arg_image_format a) (arg_page_chunks a) w with
  | (Raise e, w1) =>
      main a w = (1, log (EvStdout ("An error occurred: " +:+ exn_str e)) w1)
  | (Ok md, w1) =>
      match save_markdown md (arg_output a) (arg_page_chunks a) w1 with
      | (Raise e, w2) =>
          main a w = (1, log (EvStdout ("An error occurred: " +:+ exn_str e)) w2)
      | (Ok _, w2) =>
          main a w =
            (0, log (EvStdout ("Output saved to '" +:+ arg_output a +:+ "'."))
                  (log (EvStdout ("Successfully processed '" +:+ arg_input a +:+ "'.")) w2))
      end
  end.
Proof.
  unfold main, main_try, bind, print.
  destruct (parse_pdf_to_markdown _ _ _ _ _ _ _ w) as [[md|e] w1]; [|reflexivity].
  destruct (save_markdown _ _ _ w1) as [[[]|e] w2]; reflexivity.
Qed.

Lemma call_ok {A} ev (f : FS -> (string + A) * FS) w a w' :
  call ev f w = (Ok a, w') -> exists fs', f (w_fs w) = (inr a, fs').
Proof.
  unfold call. destruct (f (w_fs w)) as [[msg|a'] fs']; intros [= <- <-]; eauto.
Qed.

Lemma spec_join_numbered (ps : list Z) (ds : list page_dict) :
  Forall2 (fun p d => exists m, pd_metadata d = Some m /\ m !! "page" = Some (SInt (p + 1)))
    ps ds ->
  spec_join ds
  = foldr (fun pd rest =>
             "# Page " +:+ pretty (pd.1 + 1) +:+ nl +:+ nl +:+
             py_str (page_text pd.2) +:+ nl +:+ nl +:+ rest)
      "" (zip ps ds).
Proof.
  induction 1 as [|p d ps ds (m & Hm & Hp) _ IH]; [reflexivity|].
  unfold spec_join in *. cbn [zip zip_with fold_right fst snd]. rewrite <- IH.
  unfold spec_section, spec_header. rewrite Hm. cbn [mbind option_bind]. rewrite Hp.
  cbn [py_str]. now rewrite !append_assoc.
Qed.

(** C5: the pages filter is read as 0-based indices (an index is kept when it
    is within [0, total_pages)) and handed to the library as it is, the chunks
    come back as the library made them, and the headers print the page their
    metadata holds: when the library numbers the chunk of index [p] as page
    [p + 1], the header of that chunk is [# Page p+1]. *)
Theorem numbering_asymmetry pdf_path (l : list Z) wi ip dpi fmt w doc fs0 chunks fs1 :
  fitz_open pdf_path (w_fs w) = (inr doc, fs0) ->
  let total := Z.of_nat (doc_len doc) in
  let kept := filter (fun p => 0 <= p < total) l in
  kept <> [] ->
  to_markdown doc kept wi ip dpi fmt true fs0 = (inr (MdList chunks), fs1) ->
  Forall2 (fun p d => exists m, pd_metadata d = Some m /\ m !! "page" = Some (SInt (p + 1)))
    kept chunks ->
  Forall (fun p => 0 <= p < total) kept /\
  (parse_pdf_to_markdown pdf_path (Some l) wi ip dpi fmt true w).1 = Ok (MdList chunks) /\
  EvToMarkdown kept wi ip dpi fmt true
    ∈ w_trace (parse_pdf_to_markdown pdf_path (Some l) wi ip dpi fmt true w).2 /\
  joined (MdList chunks) true
  = MdStr (foldr (fun pd rest =>
                    "# Page " +:+ pretty (pd.1 + 1) +:+ nl +:+ nl +:+
                    py_str (page_text pd.2) +:+ nl +:+ nl +:+ rest)
             "" (zip kept chunks)).
Proof.
  intros Hopen total kept Hk Hlib Hnum.
  assert (l <> []) as Hl by (intros ->; now apply Hk).
  pose proof (parse_opened pdf_path (Some l) wi ip dpi fmt true w doc fs0 Hopen) as Hcall.
  cbn zeta in Hcall. rewrite select_pages_nonempty in Hcall by assumption.
  cbn zeta in Hcall. fold total in Hcall. fold kept in Hcall.
  rewrite bool_decide_eq_false_2 in Hcall by assumption.
  split; [|split; [|split]].
  - apply Forall_forall. intros p Hp.
    now apply (list_elem_of_filter (fun p => 0 <= p < total)) in Hp.
  - rewrite Hcall. unfold call. cbn [w_fs]. now rewrite Hlib.
  - rewrite Hcall, call_trace. apply elem_of_app. right. apply list_elem_of_singleton. reflexivity.
  - rewrite joined_chunks. f_equal. now apply spec_join_numbered.
Qed.

(** C6: when [parse_pdf_to_markdown] raises, [main] exits with status 1, the
    file system is as the failed call left it, and nothing that [main] did
    from its start is a [mkdir] or a write: [save_markdown] is not called. *)
Theorem failed_parse_writes_nothing a w e w1 :
  parse_pdf_to_markdown (arg_input a) (arg_pages a) (arg_write_images a)
    (arg_image_path a) (arg_dpi a) (arg_image_format a) (arg_page_chunks a) w
  = (Raise e, w1) ->
  (main a w).1 = 1 /\
  w_fs (main a w).2 = w_fs w1 /\
  exists evs,
    w_trace (main a w).2 = (w_trace w ++ evs)%list /\
    Forall (fun ev => is_save_call ev = false) evs.
Proof.
  intros Hparse.
  pose proof (main_cases a w) as Hmain. rewrite Hparse in Hmain.
  destruct (parse_trace (arg_input a) (arg_pages a) (arg_write_images a)
              (arg_image_path a) (arg_dpi a) (arg_image_format a) (arg_page_chunks a) w)
    as (evs & Ht & Hall).
  rewrite Hparse in Ht. cbn in Ht.
  rewrite Hmain. cbn. split; [reflexivity|]. split; [reflexivity|].
  exists (evs ++ [EvStdout ("An error occurred: " +:+ exn_str e)])%list.
  rewrite Ht, <- app_assoc. split; [reflexivity|].
  apply Forall_app. split; [|repeat constructor].
  eapply Forall_impl; [exact Hall|]. now intros [].
Qed.


(** C8: provided the library's output for the page list it is handed shows
    the text of exactly those pages, the output of [parse_pdf_to_markdown]
    shows the text of a page of the document exactly when the caller asked for
    it: every page without a filter, the pages of the filter otherwise. *)
Theorem only_requested_pages pdf_path pages wi ip dpi fmt pc w doc fs0 out w'
    (marker : Z -> string) :
  fitz_open pdf_path (w_fs w) = (inr doc, fs0) ->
  pages <> Some [] ->
  parse_pdf_to_markdown pdf_path pages wi ip dpi fmt pc w = (Ok out, w') ->
  let total := Z.of_nat (doc_len doc) in
  (forall ps out0 fs1,
     select_pages pages total = Ok ps ->
     to_markdown doc ps wi ip dpi fmt pc fs0 = (inr out0, fs1) ->
     forall i, 0 <= i < total -> (output_contains (marker i) out0 = true <-> i ∈ ps)) ->
  forall i, 0 <= i < total ->
    (output_contains (marker i) out = true <-> requested pages i).
Proof.
  intros Hopen Hne Hparse total Hlib i Hi.
  rewrite (parse_opened _ _ _ _ _ _ _ _ _ _ Hopen) in Hparse. cbn zeta in Hparse.
  fold total in Hparse.
  destruct (select_pages pages total) as [ps|e] eqn:Hsel; [|discriminate].
  apply call_ok in Hparse as [fs1 Hcall]. cbn [w_fs] in Hcall.
  rewrite (Hlib ps out fs1 eq_refl Hcall i Hi).
  destruct pages as [[|p l]|]; [congruence | |].
  - rewrite select_pages_nonempty in Hsel by discriminate. cbn zeta in Hsel.
    case_bool_decide; [discriminate|]. injection Hsel as <-.
    cbn [requested]. rewrite list_elem_of_filter. tauto.
  - rewrite select_pages_all in Hsel by now left. injection Hsel as <-.
    cbn [requested]. rewrite elem_of_seqZ. split; [trivial | lia].
Qed.

End Properties.

(** C1, as the specification words it, does not hold of the empty list: it is
    empty after the bounds check, and the call returns every page. *)
Lemma empty_filter_selects_all :
  filter (fun p => 0 <= p < 3) ([] : list Z) = [] /\
  fst (parse_pdf_to_markdown "three.pdf" (Some []) false "images" 150 "png" false Toy.fresh)
  = Ok (MdStr (Toy.render ["Page One Content"; "Page Two Content"; "Page Three Content"]
                 [0; 1; 2])).
Proof. split; reflexivity. Qed.

Lemma out_of_bounds_pages_dropped_witness :
  fst (parse_pdf_to_markdown "three.pdf" (Some [50]) false "images" 150 "png" false Toy.fresh)
  = Raise (no_valid_pages 3) /\
  fst (parse_pdf_to_markdown "three.pdf" (Some [7; 1; -1]) false "images" 150 "png" false
         Toy.fresh)
  = Ok (MdStr (Toy.render ["Page One Content"; "Page Two Content"; "Page Three Content"] [1])).
Proof.
  split.
  - pose proof (out_of_bounds_pages_dropped "three.pdf" [50] false "images" 150 "png" false
                  Toy.fresh _ _ ltac:(discriminate) eq_refl) as (_ & H & _).
    rewrite H; reflexivity.
  - pose proof (out_of_bounds_pages_dropped "three.pdf" [7; 1; -1] false "images" 150 "png"
                  false Toy.fresh _ _ ltac:(discriminate) eq_refl) as (_ & _ & H).
    rewrite H; [reflexivity | discriminate].
Defined.

Lemma no_valid_pages_iff_witness :
  exists msg,
    fst (parse_pdf_to_markdown "three.pdf" (Some [50; -2]) false "images" 150 "png" false
           Toy.fresh)
    = Raise (ValueError msg).
Proof.
  pose proof (no_valid_pages_iff "three.pdf" (Some [50; -2]) false "images" 150 "png" false
                Toy.fresh _ _ eq_refl) as ([_ H] & _).
  apply H. exists [50; -2]. split; [reflexivity|]. split; [discriminate|].
  repeat constructor; cbn; lia.
Defined.

(** *** The properties on the small instance *)

(** C4, as the specification words it, does not hold of a list of chunks
    passed without [page_chunks]: the directory is made, the list is not
    joined, and nothing is written. *)
Lemma chunks_without_flag_not_written :
  save_markdown (MdList [Toy.chunk ["Page 1 content"] 0]) "out.md" false Toy.fresh
  = (Raise (TypeError "data must be str, not list"),
     Toy.at_ ∅ [EvMkdir "." true true]).
Proof. reflexivity. Qed.


Lemma numbering_asymmetry_witness :
  (parse_pdf_to_markdown "two.pdf" (Some [1; 2]) false "images" 150 "png" true Toy.fresh).1
  = Ok (MdList [Toy.chunk ["First page: Hello World!"; "Second page: Goodbye World!"] 1]) /\
  joined (MdList [Toy.chunk ["First page: Hello World!"; "Second page: Goodbye World!"] 1]) true
  = MdStr ("# Page 2" +:+ nl +:+ nl +:+ "Second page: Goodbye World!" +:+ nl +:+ nl).
Proof.
  pose (doc := ["First page: Hello World!"; "Second page: Goodbye World!"]).
  pose proof (numbering_asymmetry "two.pdf" [1; 2] false "images" 150 "png" Toy.fresh
                doc ∅ [Toy.chunk doc 1] ∅ eq_refl ltac:(discriminate) eq_refl) as H.
  destruct H as (_ & Hparse & _ & Hjoin).
  - repeat constructor. eexists. split; reflexivity.
  - split; [exact Hparse|]. fold doc. rewrite Hjoin. reflexivity.
Defined.

Lemma failed_parse_writes_nothing_witness :
  let a := Toy.cli "three.pdf" "out.md" (Some [50]) false in
  (main a Toy.fresh).1 = 1 /\ w_fs (main a Toy.fresh).2 = w_fs Toy.fresh.
Proof.
  intros a.
  destruct (failed_parse_writes_nothing a Toy.fresh _ _ eq_refl) as (Hcode & Hfs & _).
  split; [exact Hcode | exact Hfs].
Defined.

Lemma save_string_verbatim_witness :
  (save_markdown (MdStr "# Test Markdown") "out.md" false Toy.fresh).1 = Ok tt /\
  path_read_text "out.md" "utf-8"
    (w_fs (save_markdown (MdStr "# Test Markdown") "out.md" false Toy.fresh).2)
  = inr "# Test Markdown".
Proof.
  destruct (save_string_verbatim "# Test Markdown" "out.md" false Toy.fresh _ _
              eq_refl eq_refl eq_refl) as (Hsave & Hread & _).
  split; [now rewrite Hsave | exact Hread].
Defined.

Lemma only_requested_pages_witness :
  let doc := ["First page: Hello World!"; "Second page: Goodbye World!"] in
  exists out,
    parse_pdf_to_markdown "two.pdf" (Some [1]) false "images" 150 "png" false Toy.fresh
    = (Ok out,
       Toy.at_ ∅ [EvOpen "two.pdf"; EvToMarkdown [1] false "images" 150 "png" false]) /\
    (output_contains "Second page: Goodbye World!" out = true <-> (1 : Z) ∈ [1 : Z]) /\
    (output_contains "First page: Hello World!" out = true <-> (0 : Z) ∈ [1 : Z]).
Proof.
  intros doc. exists (MdStr (Toy.render doc [1])). split; [reflexivity|].
  assert (forall i, 0 <= i < 2 ->
            output_contains (Toy.text_at doc i) (MdStr (Toy.render doc [1])) = true
            <-> requested (Some [1]) i) as H.
  { apply (only_requested_pages "two.pdf" (Some [1]) false "images" 150 "png" false
             Toy.fresh doc _ _ _ (Toy.text_at doc) eq_refl ltac:(discriminate) eq_refl).
    intros ps out0 fs1 [= <-] [= <- _] i Hi.
    change (0 <= i < 2) in Hi.
    assert (i = 0 \/ i = 1) as [-> | ->] by lia.
    - split; [discriminate|]. intros Hin. apply list_elem_of_singleton in Hin. discriminate.
    - split; [intros _; now apply list_elem_of_singleton | reflexivity]. }
  split; [exact (H 1 ltac:(lia)) | exact (H 0 ltac:(lia))].
Defined.

(** * Further properties of the wrapper *)

Section Selection.
Context `{X : Externals}.

Lemma select_pages_in_range pages total (ps : list Z) :
  select_pages pages total = Ok ps -> Forall (fun p => 0 <= p < total) ps.
Proof.
  destruct pages as [[|p l]|].
  - intros [= <-]. apply Forall_seqZ. intros; lia.
  - rewrite select_pages_nonempty by discriminate. cbn zeta.
    case_bool_decide; [discriminate|]. intros [= <-].
    apply Forall_forall. intros q Hq.
    now apply (list_elem_of_filter (fun p => 0 <= p < total)) in Hq.
  - intros [= <-]. apply Forall_seqZ. intros; lia.
Qed.

(** Once the document is open, [parse_pdf_to_markdown] makes at most one more
    call, to [to_markdown], with the caller's options as they are and with
    page indices that all lie within the document. *)
Theorem library_pages_in_range pdf_path pages wi ip dpi fmt pc (w : world) doc fs0 :
  fitz_open pdf_path (w_fs w) = (inr doc, fs0) ->
  w_trace (parse_pdf_to_markdown pdf_path pages wi ip dpi fmt pc w).2
  = (w_trace w ++ [EvOpen pdf_path])%list \/
  exists ps,
    w_trace (parse_pdf_to_markdown pdf_path pages wi ip dpi fmt pc w).2
    = (w_trace w ++ [EvOpen pdf_path; EvToMarkdown ps wi ip dpi fmt pc])%list /\
    Forall (fun p => 0 <= p < Z.of_nat (doc_len doc)) ps.
Proof.
  intros Hopen. rewrite (parse_opened _ _ _ _ _ _ _ _ _ _ Hopen). cbn zeta.
  destruct (select_pages _ _) as [ps|e] eqn:Hsel; [|now left].
  right. exists ps. rewrite call_trace. cbn [w_trace]. rewrite <- app_assoc.
  split; [reflexivity|]. now apply select_pages_in_range in Hsel.
Qed.

(** The pages kept from a filter come in the caller's order, repetitions
    included: they are a subsequence of the filter. *)
Theorem selection_keeps_order (l ps : list Z) total :
  l <> [] ->
  select_pages (Some l) total = Ok ps ->
  ps `sublist_of` l /\ ps <> [] /\
  (forall p, 0 <= p < total ->
     length (filter (fun q => q = p) ps) = length (filter (fun q => q = p) l)).
Proof.
  intros Hl. rewrite select_pages_nonempty by assumption. cbn zeta.
  case_bool_decide as Hk; [discriminate|]. intros [= <-].
  split; [apply sublist_filter|]. split; [assumption|].
  intros p Hp. f_equal. rewrite list_filter_filter.
  apply list_filter_iff. intros q. split.
  - now intros [Hq _].
  - intros ->. now split.
Qed.

Lemma select_pages_valid (l : list Z) total :
  l <> [] ->
  Forall (fun p => 0 <= p < total) l ->
  select_pages (Some l) total = Ok l.
Proof.
  intros Hl Hall. rewrite select_pages_nonempty by assumption. cbn zeta.
  assert (filter (fun p => 0 <= p < total) l = l) as ->.
  { clear Hl. induction Hall as [|p l Hp _ IH]; [reflexivity|].
    rewrite filter_cons, decide_True by assumption. now rewrite IH. }
  now rewrite bool_decide_eq_false_2.
Qed.

(** A filter whose indices are all within the document is handed over
    unchanged: the library is called with the caller's list. *)
Theorem valid_filter_unchanged pdf_path (l : list Z) wi ip dpi fmt pc (w : world) doc fs0 :
  fitz_open pdf_path (w_fs w) = (inr doc, fs0) ->
  l <> [] ->
  Forall (fun p => 0 <= p < Z.of_nat (doc_len doc)) l ->
  parse_pdf_to_markdown pdf_path (Some l) wi ip dpi fmt pc w
  = call (EvToMarkdown l wi ip dpi fmt pc) (to_markdown doc l wi ip dpi fmt pc)
      {| w_fs := fs0; w_trace := w_trace w ++ [EvOpen pdf_path] |}.
Proof.
  intros Hopen Hl Hall. rewrite (parse_opened _ _ _ _ _ _ _ _ _ _ Hopen). cbn zeta.
  now rewrite select_pages_valid.
Qed.

(** Selecting again from a selection changes nothing. *)
Theorem selection_idempotent pages total (ps : list Z) :
  select_pages pages total = Ok ps ->
  ps <> [] ->
  select_pages (Some ps) total = Ok ps.
Proof.
  intros Hsel Hne. apply select_pages_valid; [assumption|].
  now apply select_pages_in_range in Hsel.
Qed.

(** Without a filter, or with the empty list, the library is asked for each
    page of the document once, in ascending order: the [i]-th index is [i]. *)
Theorem no_filter_selects_ascending pages (n : nat) :
  truthy pages = false ->
  exists ps,
    select_pages pages (Z.of_nat n) = Ok ps /\
    length ps = n /\
    NoDup ps /\
    (forall i : nat, (i < n)%nat -> ps !! i = Some (Z.of_nat i)).
Proof.
  intros Hf. exists (seqZ 0 (Z.of_nat n)). split; [|split; [|split]].
  - unfold select_pages. now rewrite Hf.
  - rewrite length_seqZ. lia.
  - apply NoDup_seqZ.
  - intros i Hi. now rewrite lookup_seqZ_lt by lia.
Qed.

(** A document without pages: every non-empty filter is refused, and without
    a filter the library is called with no page at all. *)
Theorem empty_document pdf_path pages wi ip dpi fmt pc (w : world) doc fs0 :
  fitz_open pdf_path (w_fs w) = (inr doc, fs0) ->
  doc_len doc = 0%nat ->
  let w0 := {| w_fs := fs0; w_trace := w_trace w ++ [EvOpen pdf_path] |} in
  parse_pdf_to_markdown pdf_path pages wi ip dpi fmt pc w
  = if truthy pages then (Raise (no_valid_pages 0), w0)
    else call (EvToMarkdown [] wi ip dpi fmt pc) (to_markdown doc [] wi ip dpi fmt pc) w0.
Proof.
  intros Hopen Hlen w0. rewrite (parse_opened _ _ _ _ _ _ _ _ _ _ Hopen). cbn zeta.
  rewrite Hlen. change (Z.of_nat 0) with 0. fold w0.
  destruct pages as [[|p l]|]; cbn [truthy]; try reflexivity.
  assert (select_pages (Some (p :: l)) 0 = Raise (no_valid_pages 0)) as ->; [|reflexivity].
  apply select_pages_raise. split; [reflexivity|].
  exists (p :: l). split; [reflexivity|]. split; [discriminate|].
  apply Forall_forall. intros q _ Hq. lia.
Qed.

End Selection.

Lemma selection_keeps_order_witness :
  select_pages (Some [2; 9; 0; 2; -1]) 3 = Ok [2; 0; 2] /\
  [2; 0; 2] `sublist_of` [2; 9; 0; 2; -1].
Proof.
  split; [reflexivity|].
  now destruct (selection_keeps_order [2; 9; 0; 2; -1] [2; 0; 2] 3
                  ltac:(discriminate) eq_refl) as [H _].
Defined.

Lemma valid_filter_unchanged_witness :
  w_trace (parse_pdf_to_markdown "two.pdf" (Some [1; 0; 1]) false "images" 150 "png" false
             Toy.fresh).2
  = [EvOpen "two.pdf"; EvToMarkdown [1; 0; 1] false "images" 150 "png" false].
Proof.
  rewrite (valid_filter_unchanged "two.pdf" [1; 0; 1] false "images" 150 "png" false Toy.fresh
             ["First page: Hello World!"; "Second page: Goodbye World!"] ∅ eq_refl
             ltac:(discriminate)).
  - reflexivity.
  - repeat constructor; cbn; lia.
Defined.

Lemma selection_idempotent_witness : select_pages (Some [2; 0; 2]) 3 = Ok [2; 0; 2].
Proof.
  apply (selection_idempotent (Some [2; 9; 0; 2; -1]) 3); [reflexivity | discriminate].
Defined.

Lemma no_filter_selects_ascending_witness :
  exists ps, select_pages (Some []) 3 = Ok ps /\ length ps = 3%nat.
Proof.
  destruct (no_filter_selects_ascending (Some []) 3 eq_refl) as (ps & Hsel & Hlen & _).
  exists ps. split; assumption.
Defined.

Lemma library_pages_in_range_witness :
  exists ps,
    w_trace (parse_pdf_to_markdown "three.pdf" (Some [7; 1; -1]) false "images" 150 "png"
               false Toy.fresh).2
    = [EvOpen "three.pdf"; EvToMarkdown ps false "images" 150 "png" false] /\
    Forall (fun p => 0 <= p < 3) ps.
Proof.
  destruct (library_pages_in_range "three.pdf" (Some [7; 1; -1]) false "images" 150 "png"
              false Toy.fresh _ _ eq_refl) as [H | (ps & Ht & Hall)].
  - discriminate H.
  - exists ps. split; [exact Ht | exact Hall].
Defined.

Lemma empty_document_witness :
  (parse_pdf_to_markdown "empty.pdf" (Some [0]) false "images" 150 "png" false Harsh.fresh).1
  = Raise (no_valid_pages 0) /\
  (parse_pdf_to_markdown "empty.pdf" None false "images" 150 "png" false Harsh.fresh).1
  = Ok (MdStr "").
Proof.
  split.
  - now rewrite (empty_document "empty.pdf" (Some [0]) false "images" 150 "png" false
                   Harsh.fresh [] ∅ eq_refl eq_refl).
  - now rewrite (empty_document "empty.pdf" None false "images" 150 "png" false
                   Harsh.fresh [] ∅ eq_refl eq_refl).
Defined.

Lemma prefix_append (x b : string) : String.prefix x (x +:+ b) = true.
Proof.
  induction x as [|c x IH].
  { change (String.prefix "" b = true). now destruct b. }
  change (String.prefix (String c x) (String c (x +:+ b)) = true).
  cbn [String.prefix]. now destruct (ascii_dec c c).
Qed.

Lemma contains_append_r (x a b : string) :
  contains x b = true -> contains x (a +:+ b) = true.
Proof.
  intros Hb. induction a as [|c a IH]; [exact Hb|].
  change (contains x (String c (a +:+ b)) = true).
  cbn [contains]. rewrite IH. apply orb_true_r.
Qed.

Lemma contains_middle (a x b : string) : contains x (a +:+ x +:+ b) = true.
Proof.
  apply contains_append_r.
  pose proof (prefix_append x b) as Hp.
  destruct (x +:+ b); cbn [contains]; now rewrite Hp.
Qed.

Section Saving.
Context `{X : Externals}.

(** [save_markdown] raises [TypeError] exactly when it is given a list without
    [page_chunks] (and the directory can be made): the directory is then
    created, and nothing is written. *)
Theorem type_error_iff md output_path pc (w : world) fs1 :
  path_mkdir (path_parent output_path) true true (w_fs w) = (inr tt, fs1) ->
  ((exists msg, (save_markdown md output_path pc w).1 = Raise (TypeError msg)) <->
   is_list md = true /\ pc = false) /\
  (is_list md = true -> pc = false ->
   save_markdown md output_path pc w
   = (Raise (TypeError "data must be str, not list"),
      {| w_fs := fs1;
         w_trace := w_trace w ++ [EvMkdir (path_parent output_path) true true] |})).
Proof.
  intros Hmk.
  assert (forall l, save_markdown (MdList l) output_path false w
          = (Raise (TypeError "data must be str, not list"),
             {| w_fs := fs1;
                w_trace := w_trace w ++ [EvMkdir (path_parent output_path) true true] |}))
    as Hlist.
  { intros l. unfold save_markdown, bind, call. now rewrite Hmk. }
  split.
  - split.
    + intros [msg Hr]. destruct md as [s|l], pc; cbn [is_list]; try (now split).
      * rewrite save_string in Hr. unfold spec_save, bind in Hr.
        destruct (call (EvMkdir _ _ _) _ w) as [[[]|e] w1] eqn:Hc.
        -- destruct (call _ _ w1) as [[[]|e] w2] eqn:Hc2; [discriminate|].
           apply call_raise in Hc2 as [m ->]. discriminate.
        -- apply call_raise in Hc as [m ->]. discriminate.
      * rewrite save_string in Hr. unfold spec_save, bind in Hr.
        destruct (call (EvMkdir _ _ _) _ w) as [[[]|e] w1] eqn:Hc.
        -- destruct (call _ _ w1) as [[[]|e] w2] eqn:Hc2; [discriminate|].
           apply call_raise in Hc2 as [m ->]. discriminate.
        -- apply call_raise in Hc as [m ->]. discriminate.
      * rewrite save_chunks in Hr. unfold spec_save, bind in Hr.
        destruct (call (EvMkdir _ _ _) _ w) as [[[]|e] w1] eqn:Hc.
        -- destruct (call _ _ w1) as [[[]|e] w2] eqn:Hc2; [discriminate|].
           apply call_raise in Hc2 as [m ->]. discriminate.
        -- apply call_raise in Hc as [m ->]. discriminate.
    + intros [Hl ->]. destruct md as [s|l]; [discriminate|].
      eexists. now rewrite Hlist.
  - intros Hl ->. destruct md as [s|l]; [discriminate|]. apply Hlist.
Qed.

(** When the parent directory cannot be made, [save_markdown] raises what
    [mkdir] raised and does not attempt to write. *)
Theorem mkdir_failure_writes_nothing md output_path pc (w : world) msg fs1 :
  path_mkdir (path_parent output_path) true true (w_fs w) = (inl msg, fs1) ->
  save_markdown md output_path pc w
  = (Raise (ExternalError msg),
     {| w_fs := fs1;
        w_trace := w_trace w ++ [EvMkdir (path_parent output_path) true true] |}).
Proof. intros Hmk. unfold save_markdown, bind, call. now rewrite Hmk. Qed.

(** The text made of a list of chunks shows, for every record of the list, its
    header line and its body. *)
Theorem chunks_contain_headers (l : list page_dict) d text :
  d ∈ l ->
  joined (MdList l) true = MdStr text ->
  contains ("# Page " +:+ py_str (page_number d)) text = true /\
  contains (py_str (page_text d)) text = true.
Proof.
  intros Hd. rewrite joined_chunks. intros [= <-].
  apply list_elem_of_split in Hd as (l1 & l2 & ->).
  rewrite spec_join_app.
  change (spec_join (d :: l2)) with (spec_section d +:+ spec_join l2).
  unfold spec_section. rewrite page_number_header. split.
  - rewrite !append_assoc. apply contains_middle.
  - rewrite !append_assoc. do 4 apply contains_append_r.
    apply (contains_middle "").
Qed.

(** Records with different integer page numbers get different header lines. *)
Theorem headers_distinguish_pages d d' m m' (k k' : Z) :
  pd_metadata d = Some m -> m !! "page" = Some (SInt k) ->
  pd_metadata d' = Some m' -> m' !! "page" = Some (SInt k') ->
  k <> k' ->
  "# Page " +:+ py_str (page_number d) <> "# Page " +:+ py_str (page_number d').
Proof.
  intros Hm Hk Hm' Hk' Hne. unfold page_number. rewrite Hm, Hm'. cbn. rewrite Hk, Hk'. cbn.
  intros Heq. apply (inj (String.append "# Page ")) in Heq.
  now apply (inj pretty) in Heq.
Qed.

(** Joining is additive: the text of two lists of chunks put end to end is the
    text of the first followed by the text of the second, and the text of no
    chunk at all is empty. *)
Theorem joined_app (l1 l2 : list page_dict) :
  fold_left add_page (l1 ++ l2) "" = fold_left add_page l1 "" +:+ fold_left add_page l2 "" /\
  joined (MdList []) true = MdStr "".
Proof.
  split; [|reflexivity]. rewrite !fold_add_page. cbn. apply spec_join_app.
Qed.

(** The text of a non-empty list of chunks begins with a header and ends with
    a blank line. *)
Theorem chunks_text_shape (l : list page_dict) text :
  l <> [] ->
  joined (MdList l) true = MdStr text ->
  String.prefix "# Page " text = true /\ exists t, text = t +:+ nl +:+ nl.
Proof.
  intros Hl. rewrite joined_chunks. intros [= <-]. split.
  - destruct l as [|d l]; [congruence|].
    unfold spec_join. cbn [fold_right]. unfold spec_section, spec_header.
    rewrite !append_assoc. apply prefix_append.
  - destruct l as [|d l _] using rev_ind; [congruence|].
    rewrite spec_join_app. unfold spec_join at 2. cbn [fold_right].
    unfold spec_section. rewrite append_nil_r.
    exists (spec_join l +:+ spec_header d +:+ nl +:+ nl +:+ py_str (page_text d)).
    now rewrite !append_assoc.
Qed.

End Saving.

Lemma type_error_iff_witness :
  exists msg,
    (save_markdown (MdList []) "notes/out.md" false Harsh.fresh).1 = Raise (TypeError msg).
Proof.
  destruct (type_error_iff (MdList []) "notes/out.md" false Harsh.fresh ∅ eq_refl)
    as [[_ H] _].
  apply H. now split.
Defined.

Lemma mkdir_failure_writes_nothing_witness :
  save_markdown (MdStr "text") "ro/notes/out.md" false Harsh.fresh
  = (Raise (ExternalError "Read-only file system: 'ro/notes'"),
     Harsh.at_ ∅ [EvMkdir "ro/notes" true true]).
Proof.
  exact (mkdir_failure_writes_nothing (MdStr "text") "ro/notes/out.md" false Harsh.fresh
           _ ∅ eq_refl).
Defined.

Lemma chunks_contain_headers_witness :
  let l := [ {| pd_metadata := Some {[ "page" := SInt 1 ]};
                pd_text := Some (SStr "Page 1 content") |};
             {| pd_metadata := Some {[ "page" := SInt 2 ]};
                pd_text := Some (SStr "Page 2 content") |} ] in
  contains "# Page 2" (fold_left add_page l "") = true /\
  contains "Page 2 content" (fold_left add_page l "") = true.
Proof.
  intros l.
  exact (chunks_contain_headers l
           {| pd_metadata := Some {[ "page" := SInt 2 ]};
              pd_text := Some (SStr "Page 2 content") |} (fold_left add_page l "")
           (list_elem_of_further _ _ _ (list_elem_of_here _ _)) eq_refl).
Defined.

Lemma headers_distinguish_pages_witness :
  "# Page " +:+ py_str (page_number {| pd_metadata := Some {[ "page" := SInt 1 ]};
                                       pd_text := None |})
  <> "# Page " +:+ py_str (page_number {| pd_metadata := Some {[ "page" := SInt 12 ]};
                                          pd_text := None |}).
Proof.
  apply (headers_distinguish_pages _ _ {[ "page" := SInt 1 ]} {[ "page" := SInt 12 ]} 1 12);
    try reflexivity. discriminate.
Defined.

Lemma chunks_text_shape_witness :
  let text := "# Page unknown" +:+ nl +:+ nl +:+ "body" +:+ nl +:+ nl in
  String.prefix "# Page " text = true /\ exists t, text = t +:+ nl +:+ nl.
Proof.
  intros text.
  exact (chunks_text_shape [ {| pd_metadata := None; pd_text := Some (SStr "body") |} ] text
           ltac:(discriminate) eq_refl).
Defined.

Section Flow.
Context `{X : Externals}.

(** The whole successful run: when the document opens, the library returns,
    and the directory and the file can be written, [main] makes exactly these
    calls in this order, leaves the joined output in the file system's hands
    and exits with 0. *)
Theorem main_success a (w : world) doc fs0 ps md fs1 text fs2 fs3 :
  fitz_open (arg_input a) (w_fs w) = (inr doc, fs0) ->
  select_pages (arg_pages a) (Z.of_nat (doc_len doc)) = Ok ps ->
  to_markdown doc ps (arg_write_images a) (arg_image_path a) (arg_dpi a)
    (arg_image_format a) (arg_page_chunks a) fs0 = (inr md, fs1) ->
  joined md (arg_page_chunks a) = MdStr text ->
  path_mkdir (path_parent (arg_output a)) true true fs1 = (inr tt, fs2) ->
  path_write_text (arg_output a) text "utf-8" fs2 = (inr tt, fs3) ->
  main a w
  = (0, {| w_fs := fs3;
           w_trace := w_trace w ++
             [EvOpen (arg_input a);
              EvToMarkdown ps (arg_write_images a) (arg_image_path a) (arg_dpi a)
                (arg_image_format a) (arg_page_chunks a);
              EvMkdir (path_parent (arg_output a)) true true;
              EvWriteText (arg_output a) text "utf-8";
              EvStdout ("Successfully processed '" +:+ arg_input a +:+ "'.");
              EvStdout ("Output saved to '" +:+ arg_output a +:+ "'.")] |}).
Proof.
  intros Hopen Hsel Hlib Hjoin Hmk Hwr.
  pose proof (main_cases a w) as Hmain.
  rewrite (parse_opened _ _ _ _ _ _ _ _ _ _ Hopen) in Hmain. cbn zeta in Hmain.
  rewrite Hsel in Hmain. unfold call at 1 in Hmain. cbn [w_fs w_trace] in Hmain.
  rewrite Hlib in Hmain.
  unfold save_markdown, bind, call at 1 in Hmain. cbn [w_fs w_trace] in Hmain.
  rewrite Hmk, Hjoin in Hmain. cbn [write_text] in Hmain.
  unfold call in Hmain. cbn [w_fs w_trace] in Hmain. rewrite Hwr in Hmain.
  rewrite Hmain. unfold log. cbn [w_fs w_trace]. f_equal. f_equal.
  now rewrite <- !app_assoc.
Qed.

End Flow.

Lemma main_success_witness :
  main (Toy.cli "two.pdf" "out.md" (Some [1; 5]) true) Toy.fresh
  = (0, Toy.at_
          {[ "out.md" := "# Page 2" +:+ nl +:+ nl +:+ "Second page: Goodbye World!"
                         +:+ nl +:+ nl ]}
          [EvOpen "two.pdf";
           EvToMarkdown [1] false "images" 150 "png" true;
           EvMkdir "." true true;
           EvWriteText "out.md"
             ("# Page 2" +:+ nl +:+ nl +:+ "Second page: Goodbye World!" +:+ nl +:+ nl)
             "utf-8";
           EvStdout "Successfully processed 'two.pdf'.";
           EvStdout "Output saved to 'out.md'."]).
Proof.
  exact (main_success (Toy.cli "two.pdf" "out.md" (Some [1; 5]) true) Toy.fresh
           ["First page: Hello World!"; "Second page: Goodbye World!"] ∅ [1]
           (MdList [Toy.chunk ["First page: Hello World!"; "Second page: Goodbye World!"] 1])
           ∅ ("# Page 2" +:+ nl +:+ nl +:+ "Second page: Goodbye World!" +:+ nl +:+ nl)
           ∅ _ eq_refl eq_refl eq_refl eq_refl eq_refl eq_refl).
Defined.
